(** * Lab-report portal client: shallow embedding and verified properties

    The client is a React application.  Three source units carry its logic:

    - [lib/api]: the shared axios instance and its request interceptor,
    - [App.js]: the authorization gate [ProtectedRoute], the role dispatch
      [DashboardRouter] and the route table [App],
    - [pages/AdminDashboard.js] and [pages/UserDashboard.js]: the page
      controllers ([fetchData], [handleUpload], [handleDelete],
      [handleDownload], [handlePreview]).

    Event handlers are embedded in a small monad that reads the browser
    environment, threads the component state, may throw, and records every
    observable effect (requests put on the wire, toasts, dialogs, windows
    opened, downloads triggered) in a log. *)

From stdpp Require Import base strings gmap list.

(** ** JavaScript value conventions used by the sources *)

Module Js.

(** A string is truthy unless it is empty. *)
Definition truthy (s : string) : bool := negb (String.eqb s "").

(** [a || b] where [a] is a string or [undefined]/[null]. *)
Definition or_else (a : option string) (b : string) : string :=
  match a with
  | Some s => if truthy s then s else b
  | None => b
  end.

(** [`${a}`] where [a] is a string or [null]. *)
Definition template (a : option string) : string :=
  match a with
  | Some s => s
  | None => "null"
  end.

End Js.

(** ** Data exchanged with the server *)

(** Report metadata as rendered by both dashboards ([r.id],
    [r.original_name], [r.user_email], [r.file_type], [r.created_at]).
    Identifiers are kept in the textual form a template literal gives them. *)
Record Report := {
  report_id : string;
  original_name : string;
  user_email : string;
  file_type : string;
  created_at : string
}.

(** Rows of [GET /users] as rendered by the admin form ([u.id], [u.email]). *)
Record UserRow := {
  row_id : string;
  row_email : string
}.

(** A file picked in the upload form ([e.target.files[0]]). *)
Record File := {
  file_name : string;
  file_content : string
}.

(** What a response body can be.  The client stores it untyped. *)
Inductive Payload :=
| ReportList (rs : list Report)
| UserList (us : list UserRow)
| Binary (content : string)
| ErrorBody (detail : option string)
| NoBody.

(** [data?.detail] *)
Definition payload_detail (d : Payload) : option string :=
  match d with
  | ErrorBody detail => detail
  | _ => None
  end.

Inductive Method := GET | POST | DELETE.

Inductive FormValue :=
| FormFile (f : File)
| FormText (s : string).

(** [FormData]: [append] keeps insertion order and duplicates. *)
Definition FormData := list (string * FormValue).

(** The axios request configuration.  [headers] holds the headers set by
    the application; [body] is the payload argument of [api.post]. *)
Record Config := {
  method : Method;
  baseURL : string;
  url : string;
  headers : gmap string string;
  body : option FormData;
  responseType : option string
}.

Definition set_headers (h : gmap string string) (c : Config) : Config :=
  {| method := method c; baseURL := baseURL c; url := url c;
     headers := h; body := body c; responseType := responseType c |}.

Record AxiosResponse := {
  status : Z;
  data : Payload
}.

(** The value thrown by a rejected request; [response] is absent when the
    request never reached the server. *)
Record AxiosError := {
  response : option AxiosResponse
}.

(** [err.response?.data?.detail] *)
Definition error_detail (err : AxiosError) : option string :=
  match response err with
  | Some r => payload_detail (data r)
  | None => None
  end.

(** A promise returned by the HTTP client, identified with the way it
    settles. *)
Inductive Promise :=
| Resolved (r : AxiosResponse)
| Rejected (e : AxiosError).

(** ** lib/api: base URL and request interceptor *)

Definition DEFAULT_BACKEND_URL : string :=
  "https://lab-report-hub-1.preview.emergentagent.com/api".

(** [process.env.REACT_APP_BACKEND_URL || '<default>'] *)
Definition backendUrl (env : option string) : string :=
  Js.or_else env DEFAULT_BACKEND_URL.

(** [localStorage.getItem] and [localStorage.removeItem]. *)
Definition getItem (storage : gmap string string) (key : string)
  : option string := storage !! key.

Definition removeItem (storage : gmap string string) (key : string)
  : gmap string string := delete key storage.

(** The function registered with [api.interceptors.request.use]. *)
Definition request_interceptor (storage : gmap string string)
    (config : Config) : Config :=
  match getItem storage "token" with
  | Some token =>
      if Js.truthy token
      then set_headers (<["Authorization" := "Bearer " +:+ token]> (headers config)) config
      else config
  | None => config
  end.

(** ** The handler monad *)

Inductive ToastKind := ToastError | ToastSuccess.

(** The target of an anchor's [href]: an object URL made from a blob. *)
Inductive Href := ObjectURL (blob : Payload).

Inductive Effect :=
| PreventDefault
| Sent (config : Config)
| Toast (kind : ToastKind) (message : string)
| ConfirmDialog (message : string) (answer : bool)
| WindowOpen (address target : string)
| LinkClick (href : Href) (download : string).

(** The browser environment a handler runs in. *)
Record World := {
  localStorage : gmap string string;
  REACT_APP_BACKEND_URL : option string;
  network : Config → Promise;
  window_confirm : string → bool
}.

(** A computation reads the world, updates the component state [S], either
    throws or returns, and appends to the effect log. *)
Definition M (S A : Type) : Type :=
  World → S → (AxiosError + A) * S * list Effect.

Definition outcome {S A} (r : (AxiosError + A) * S * list Effect) := r.1.1.
Definition final {S A} (r : (AxiosError + A) * S * list Effect) := r.1.2.
Definition effects {S A} (r : (AxiosError + A) * S * list Effect) := r.2.

Section Monad.
Context {S : Type}.

Definition ret {A} (a : A) : M S A := λ _ s, (inr a, s, []).

Definition bind {A B} (m : M S A) (k : A → M S B) : M S B :=
  λ w s,
    match m w s with
    | (inr a, s1, l1) =>
        match k a w s1 with
        | (r, s2, l2) => (r, s2, l1 ++ l2)
        end
    | (inl e, s1, l1) => (inl e, s1, l1)
    end.

Definition throw {A} (e : AxiosError) : M S A := λ _ s, (inl e, s, []).

(** [try { m } catch (err) { h err }] *)
Definition try_catch {A} (m : M S A) (h : AxiosError → M S A) : M S A :=
  λ w s,
    match m w s with
    | (inr a, s1, l1) => (inr a, s1, l1)
    | (inl e, s1, l1) =>
        match h e w s1 with
        | (r, s2, l2) => (r, s2, l1 ++ l2)
        end
    end.

(** Calling an async function without awaiting it: its effects happen,
    its result (a promise nobody looks at) is dropped. *)
Definition fire_and_forget {A} (m : M S A) : M S unit :=
  λ w s,
    match m w s with
    | (_, s1, l1) => (inr tt, s1, l1)
    end.

Definition emit (e : Effect) : M S unit := λ _ s, (inr tt, s, [e]).
Definition world : M S World := λ w s, (inr w, s, []).
Definition get_state : M S S := λ _ s, (inr s, s, []).
Definition modify (f : S → S) : M S unit := λ _ s, (inr tt, f s, []).

(** [await p] *)
Definition await (p : Promise) : M S AxiosResponse :=
  match p with
  | Resolved r => ret r
  | Rejected e => throw e
  end.

End Monad.

#[global] Instance M_ret {S} : MRet (M S) := @ret S.
#[global] Instance M_bind {S} : MBind (M S) := λ A B k m, bind m k.

(** [Promise.all([p1, p2])]: settles with both responses, or rejects as soon
    as one of the two rejects. *)
Definition promise_all2 (p1 p2 : Promise)
  : AxiosError + AxiosResponse * AxiosResponse :=
  match p1, p2 with
  | Resolved r1, Resolved r2 => inr (r1, r2)
  | Rejected e, _ => inl e
  | _, Rejected e => inl e
  end.

(** ** The shared [api] instance *)

Section Api.
Context {S : Type}.

(** The configuration a request leaves with: the call's own configuration
    completed with the base URL of the instance created by [axios.create]
    and passed through the request interceptor. *)
Definition outgoing (w : World) (m : Method) (path : string)
    (h : gmap string string) (b : option FormData) (rt : option string)
  : Config :=
  request_interceptor (localStorage w)
    {| method := m; baseURL := backendUrl (REACT_APP_BACKEND_URL w);
       url := path; headers := h; body := b; responseType := rt |}.

(** Issuing a request puts it on the wire and returns its promise, which
    settles as the network decides. *)
Definition api_request (m : Method) (path : string)
    (h : gmap string string) (b : option FormData) (rt : option string)
  : M S Promise :=
  w ← world;
  emit (Sent (outgoing w m path h b rt));;
  mret (network w (outgoing w m path h b rt)).

Definition api_get (path : string) (rt : option string) : M S Promise :=
  api_request GET path ∅ None rt.

Definition api_post (path : string) (payload : FormData)
    (h : gmap string string) : M S Promise :=
  api_request POST path h (Some payload) None.

Definition api_delete (path : string) : M S Promise :=
  api_request DELETE path ∅ None None.

Definition toast_error (msg : string) : M S unit := emit (Toast ToastError msg).
Definition toast_success (msg : string) : M S unit := emit (Toast ToastSuccess msg).

End Api.

(** [await Promise.all([p1, p2])] *)
Definition await_all2 {S} (p1 p2 : Promise)
  : M S (AxiosResponse * AxiosResponse) :=
  match promise_all2 p1 p2 with
  | inr rs => mret rs
  | inl e => throw e
  end.

(** Requests and notices found in an effect log. *)
Definition sent (l : list Effect) : list Config :=
  omap (λ e, match e with Sent c => Some c | _ => None end) l.

Definition toasts (l : list Effect) : list (ToastKind * string) :=
  omap (λ e, match e with Toast k m => Some (k, m) | _ => None end) l.

(** ** App.js: authorization gate and role dispatch *)

(** Modelled from the spec: the user record [{email, role}] and the value
    [{user, loading}] that [useAuth()] hands to the components; the hook
    [hooks/useAuth] that declares them is not among the sources.  [user] is
    [None] when nobody is authenticated. *)
Record User := {
  email : string;
  role : string
}.

(** Modelled from the spec: the context value of [useAuth()], with
    [loading] true while session restoration is pending. *)
Record AuthContext := {
  user : option User;
  loading : bool
}.

(** What a component returns. *)
Inductive Element :=
| LoadingScreen
| Navigate (to : string)
| AuthPageElement (mode : string)
| AdminDashboardElement
| UserDashboardElement
| NoMatch.

Definition ProtectedRoute (auth : AuthContext) (children : Element)
    (requireAdmin : bool) : Element :=
  if loading auth then LoadingScreen
  else match user auth with
       | None => Navigate "/login"
       | Some u =>
           if requireAdmin && negb (String.eqb (role u) "admin")
           then Navigate "/"
           else children
       end.

(** [user?.role === 'admin'] is false when there is no user. *)
Definition DashboardRouter (auth : AuthContext) : Element :=
  match user auth with
  | Some u =>
      if String.eqb (role u) "admin" then AdminDashboardElement
      else UserDashboardElement
  | None => UserDashboardElement
  end.

(** The route table of [App]; [requireAdmin] is left at its default.  The
    path is compared with the three paths the table lists as they are
    written; the properties below use the table at these paths only. *)
Definition App (auth : AuthContext) (path : string) : Element :=
  if String.eqb path "/login" then AuthPageElement "login"
  else if String.eqb path "/register" then AuthPageElement "register"
  else if String.eqb path "/"
       then ProtectedRoute auth (DashboardRouter auth) false
       else NoMatch.

(** ** pages/AdminDashboard.js *)

Module AdminDashboard.

Record State := {
  reports : Payload;
  users : Payload;
  selectedUser : string;
  file : option File
}.

(** [useState([])], [useState([])], [useState('')], [useState(null)] *)
Definition initial : State :=
  {| reports := ReportList []; users := UserList [];
     selectedUser := ""; file := None |}.

Definition setReports (v : Payload) : M State unit :=
  modify (λ s, {| reports := v; users := users s;
                  selectedUser := selectedUser s; file := file s |}).
Definition setUsers (v : Payload) : M State unit :=
  modify (λ s, {| reports := reports s; users := v;
                  selectedUser := selectedUser s; file := file s |}).
Definition setSelectedUser (v : string) : M State unit :=
  modify (λ s, {| reports := reports s; users := users s;
                  selectedUser := v; file := file s |}).
Definition setFile (v : option File) : M State unit :=
  modify (λ s, {| reports := reports s; users := users s;
                  selectedUser := selectedUser s; file := v |}).

(** The requests the page puts on the wire, as they leave the client. *)
Definition reportsRequest (w : World) : Config :=
  outgoing w GET "/reports" ∅ None None.
Definition usersRequest (w : World) : Config :=
  outgoing w GET "/users" ∅ None None.

Definition fetchData : M State unit :=
  try_catch
    (p1 ← api_get "/reports" None;
     p2 ← api_get "/users" None;
     '(reportsRes, usersRes) ← await_all2 p1 p2;
     setReports (data reportsRes);;
     setUsers (data usersRes))
    (λ err, toast_error "Failed to fetch dashboard data").

Definition MULTIPART : gmap string string :=
  {[ "Content-Type" := "multipart/form-data" ]}.

Definition uploadRequest (w : World) (f : File) (target : string) : Config :=
  outgoing w POST "/reports/upload" MULTIPART
    (Some [("file", FormFile f); ("user_email", FormText target)]) None.

Definition handleUpload : M State unit :=
  emit PreventDefault;;
  st ← get_state;
  match file st with
  | Some f =>
      if Js.truthy (selectedUser st) then
        let formData :=
          [("file", FormFile f); ("user_email", FormText (selectedUser st))] in
        try_catch
          (p ← api_post "/reports/upload" formData MULTIPART;
           _ ← await p;
           toast_success "Report uploaded successfully";;
           setFile None;;
           setSelectedUser "";;
           fire_and_forget fetchData)
          (λ err,
             toast_error (Js.or_else (error_detail err) "Upload failed"))
      else toast_error "Please select both a file and a user"
  | None => toast_error "Please select both a file and a user"
  end.

Definition CONFIRM_DELETE : string :=
  "Are you sure you want to delete this report?".

Definition deleteRequest (w : World) (id : string) : Config :=
  outgoing w DELETE ("/reports/" +:+ id) ∅ None None.

Definition handleDelete (id : string) : M State unit :=
  w ← world;
  let granted := window_confirm w CONFIRM_DELETE in
  emit (ConfirmDialog CONFIRM_DELETE granted);;
  if negb granted then mret tt
  else
    try_catch
      (p ← api_delete ("/reports/" +:+ id);
       _ ← await p;
       toast_success "Report deleted";;
       fire_and_forget fetchData)
      (λ err, toast_error "Delete failed").

(** The trash button of a table row: [onClick={() => handleDelete(r.id)}] *)
Definition deleteButton (r : Report) : M State unit :=
  handleDelete (report_id r).

End AdminDashboard.

(** ** pages/UserDashboard.js *)

Module UserDashboard.

Record State := {
  reports : Payload
}.

Definition initial : State := {| reports := ReportList [] |}.

Definition setReports (v : Payload) : M State unit :=
  modify (λ _, {| reports := v |}).

Definition fetchReports : M State unit :=
  try_catch
    (p ← api_get "/reports" None;
     res ← await p;
     setReports (data res))
    (λ err, toast_error "Failed to fetch your reports").

Definition downloadRequest (w : World) (reportId : string) : Config :=
  outgoing w GET ("/reports/" +:+ reportId +:+ "/download") ∅ None
    (Some "blob").

(** The anchor built by the handler carries the object URL of the blob
    as [href] and [filename] as [download] attribute, and is clicked. *)
Definition handleDownload (reportId filename : string) : M State unit :=
  try_catch
    (p ← api_get ("/reports/" +:+ reportId +:+ "/download") (Some "blob");
     res ← await p;
     emit (LinkClick (ObjectURL (data res)) filename))
    (λ err, toast_error "Download failed").

Definition handlePreview (reportId : string) : M State unit :=
  w ← world;
  let baseUrl := backendUrl (REACT_APP_BACKEND_URL w) in
  let token := getItem (localStorage w) "token" in
  emit (WindowOpen
          (baseUrl +:+ "/reports/" +:+ reportId +:+ "/preview?token="
             +:+ Js.template token)
          "_blank").

(** The buttons of a report card. *)
Definition previewButton (r : Report) : M State unit :=
  handlePreview (report_id r).
Definition downloadButton (r : Report) : M State unit :=
  handleDownload (report_id r) (original_name r).

End UserDashboard.

(** ** pages/AuthPage.js *)

Module AuthPage.

(** The page's local state ([isLogin], [email], [password], [role]) together
    with the router location, which the page changes through [navigate]. *)
Record State := {
  isLogin : bool;
  email : string;
  password : string;
  role : string;
  location : string
}.

(** [useState(mode === 'login')], [useState('')], [useState('')],
    [useState('user')], for a page mounted at [at_location]. *)
Definition initial (mode : string) (at_location : string) : State :=
  {| isLogin := String.eqb mode "login"; email := ""; password := "";
     role := "user"; location := at_location |}.

Definition setIsLogin (v : bool) : M State unit :=
  modify (λ s, {| isLogin := v; email := email s; password := password s;
                  role := role s; location := location s |}).
Definition setEmail (v : string) : M State unit :=
  modify (λ s, {| isLogin := isLogin s; email := v; password := password s;
                  role := role s; location := location s |}).
Definition setPassword (v : string) : M State unit :=
  modify (λ s, {| isLogin := isLogin s; email := email s; password := v;
                  role := role s; location := location s |}).
Definition setRole (v : string) : M State unit :=
  modify (λ s, {| isLogin := isLogin s; email := email s;
                  password := password s; role := v;
                  location := location s |}).

(** [navigate(to)], from [useNavigate()]. *)
Definition navigate (to : string) : M State unit :=
  modify (λ s, {| isLogin := isLogin s; email := email s;
                  password := password s; role := role s; location := to |}).

(** The form's submit handler.  [login] and [register] are the functions of
    [useAuth()], whose hook is not among the sources: they are taken as
    arguments, and awaited. *)
Definition handleSubmit (login : string → string → M State unit)
    (register : string → string → string → M State unit) : M State unit :=
  emit PreventDefault;;
  st ← get_state;
  try_catch
    ((if isLogin st then login (email st) (password st)
      else register (email st) (password st) (role st));;
     toast_success (if isLogin st then "Logged in successfully"
                    else "Registered successfully");;
     navigate "/")
    (λ err,
       toast_error (Js.or_else (error_detail err) "Authentication failed")).

(** The link under the form: [onClick={() => setIsLogin(!isLogin)}] *)
Definition toggleMode : M State unit :=
  st ← get_state;
  setIsLogin (negb (isLogin st)).

End AuthPage.

(** ** Sample data

    Concrete users, worlds and states on which the properties below are
    exercised. *)

Module Sample.

Definition alice : User :=
  {| email := "alice@example.com"; role := "admin" |}.
Definition bob : User :=
  {| email := "patient@example.com"; role := "user" |}.

Definition settled (u : User) : AuthContext :=
  {| user := Some u; loading := false |}.

Definition lipid_panel : File :=
  {| file_name := "lipid_panel.pdf"; file_content := "%PDF-1.4" |}.

Definition lipid_report : Report :=
  {| report_id := "42"; original_name := "lipid_panel.pdf";
     user_email := "patient@example.com"; file_type := "pdf";
     created_at := "2024-01-01T00:00:00Z" |}.

Definition ok (d : Payload) : Promise :=
  Resolved {| status := 200; data := d |}.

Definition refused (detail : option string) : Promise :=
  Rejected {| response :=
                Some {| status := 400; data := ErrorBody detail |} |}.

(** A server that answers every request. *)
Definition healthy (c : Config) : Promise :=
  match method c with
  | GET =>
      if String.eqb (url c) "/reports" then ok (ReportList [lipid_report])
      else if String.eqb (url c) "/users"
           then ok (UserList [{| row_id := "1";
                                 row_email := "patient@example.com" |}])
           else ok (Binary "%PDF-1.4")
  | POST => ok NoBody
  | DELETE => ok NoBody
  end.

(** A server that rejects uploads with the given detail and everything
    else without a body. *)
Definition rejecting (detail : option string) (c : Config) : Promise :=
  match method c with
  | POST => refused detail
  | _ => Rejected {| response := None |}
  end.

Definition browser (token : option string) (net : Config → Promise)
    (answer : bool) : World :=
  {| localStorage :=
       match token with
       | Some t => {[ "token" := t ]}
       | None => ∅
       end;
     REACT_APP_BACKEND_URL := None;
     network := net;
     window_confirm := λ _, answer |}.

Definition signed_in : World := browser (Some "abc") healthy true.
Definition blank_token : World := browser (Some "") healthy true.
Definition upload_refused : World :=
  browser (Some "abc") (rejecting (Some "Unsupported file type")) true.
Definition upload_refused_blank : World :=
  browser (Some "abc") (rejecting (Some "")) true.

Definition form_filled : AdminDashboard.State :=
  {| AdminDashboard.reports := ReportList [];
     AdminDashboard.users := UserList [];
     AdminDashboard.selectedUser := "patient@example.com";
     AdminDashboard.file := Some lipid_panel |}.

Definition form_without_file : AdminDashboard.State :=
  {| AdminDashboard.reports := ReportList [];
     AdminDashboard.users := UserList [];
     AdminDashboard.selectedUser := "patient@example.com";
     AdminDashboard.file := None |}.

End Sample.

(** ** Observations on runs *)

(** [c] is a request of the shared client, built from a call that set no
    Authorization header of its own. *)
Definition via_client (w : World) (c : Config) : Prop :=
  ∃ m path h b rt,
    h !! "Authorization" = None ∧ c = outgoing w m path h b rt.

(** The two collections of the admin page after a run: either both as they
    were, or both replaced by the bodies of the two list responses. *)
Definition collections_kept (s s' : AdminDashboard.State) : Prop :=
  AdminDashboard.reports s' = AdminDashboard.reports s ∧
  AdminDashboard.users s' = AdminDashboard.users s.

Definition collections_refreshed (w : World) (s' : AdminDashboard.State)
  : Prop :=
  ∃ reportsRes usersRes,
    network w (AdminDashboard.reportsRequest w) = Resolved reportsRes ∧
    network w (AdminDashboard.usersRequest w) = Resolved usersRes ∧
    AdminDashboard.reports s' = data reportsRes ∧
    AdminDashboard.users s' = data usersRes.

(** Further sample data. *)

Module Scenario.

(** A request whose caller set an Authorization header of its own. *)
Definition with_basic_auth : Config :=
  {| method := GET; baseURL := DEFAULT_BACKEND_URL; url := "/reports";
     headers := {[ "Authorization" := "Basic dXNlcjpwdw==" ]};
     body := None; responseType := None |}.

Definition token_store : gmap string string := {[ "token" := "abc" ]}.

Definition signed_out : World := Sample.browser None Sample.healthy true.

(** A build whose environment overrides the backend URL. *)
Definition local_backend : World :=
  {| localStorage := {[ "token" := "abc" ]};
     REACT_APP_BACKEND_URL := Some "http://localhost:8000/api";
     network := Sample.healthy;
     window_confirm := λ _, true |}.

Definition login_form : AuthPage.State :=
  {| AuthPage.isLogin := true; AuthPage.email := "patient@example.com";
     AuthPage.password := "secret"; AuthPage.role := "user";
     AuthPage.location := "/login" |}.

Definition register_form : AuthPage.State :=
  {| AuthPage.isLogin := false; AuthPage.email := "patient@example.com";
     AuthPage.password := "secret"; AuthPage.role := "admin";
     AuthPage.location := "/register" |}.

(** Stand-ins for the functions of [useAuth()]: one that resolves after
    one request, one that rejects with a server detail. *)
Definition accepting_login (e p : string) : M AuthPage.State unit :=
  q ← api_request POST "/auth/login" ∅ None None;
  _ ← await q;
  mret tt.

Definition rejecting_call (detail : option string) : M AuthPage.State unit :=
  throw {| response := Some {| status := 401; data := ErrorBody detail |} |}.

End Scenario.

(** * Properties *)

(** ** Truthiness *)

Lemma truthy_nonempty s : Js.truthy s = true ↔ s ≠ "".
Proof.
  unfold Js.truthy. destruct (String.eqb_spec s ""); simpl; split; congruence.
Qed.

Lemma truthy_empty s : Js.truthy s = false ↔ s = "".
Proof.
  unfold Js.truthy. destruct (String.eqb_spec s ""); simpl; split; congruence.
Qed.

Lemma or_else_nonempty m b : m ≠ "" → Js.or_else (Some m) b = m.
Proof. intros H. apply truthy_nonempty in H. simpl. by rewrite H. Qed.

(** ** The authorization gate *)

Lemma role_test_admin u : String.eqb (role u) "admin" = true ↔ role u = "admin".
Proof. apply String.eqb_eq. Qed.

Lemma role_test_other u : String.eqb (role u) "admin" = false ↔ role u ≠ "admin".
Proof. apply String.eqb_neq. Qed.

(** C2. While session restoration is pending the gate shows the loading
    state.  Once it is settled: without an authenticated user the gate
    redirects to the login view; with a user whose role is not 'admin' on a
    region that requires the admin role it redirects to the root view; in
    every other case it renders the protected content. *)
Theorem ProtectedRoute_gate (auth : AuthContext) (children : Element)
    (requireAdmin : bool) :
  match loading auth, user auth with
  | true, _ => ProtectedRoute auth children requireAdmin = LoadingScreen
  | false, None =>
      ProtectedRoute auth children requireAdmin = Navigate "/login"
  | false, Some u =>
      (requireAdmin = true ∧ role u ≠ "admin" →
       ProtectedRoute auth children requireAdmin = Navigate "/") ∧
      (requireAdmin = false ∨ role u = "admin" →
       ProtectedRoute auth children requireAdmin = children)
  end.
Proof.
  unfold ProtectedRoute.
  destruct (loading auth); [done|].
  destruct (user auth) as [u|]; [|done].
  split.
  - intros [-> Hrole]. apply role_test_other in Hrole. by rewrite Hrole.
  - intros [-> | Hrole]; [done|].
    apply role_test_admin in Hrole. rewrite Hrole. by destruct requireAdmin.
Qed.

Lemma ProtectedRoute_gate_witness :
  ProtectedRoute (Sample.settled Sample.bob) AdminDashboardElement true
  = Navigate "/".
Proof.
  pose proof (ProtectedRoute_gate (Sample.settled Sample.bob)
                AdminDashboardElement true) as [H _].
  apply H. split; [reflexivity | discriminate].
Defined.

(** C3. For an authenticated user on the root route the element rendered is
    the admin dashboard when the role is 'admin' and the user dashboard for
    any other role; the gate hands over what the role dispatch returns, and
    two users with the same role get the same dashboard, whatever their
    other fields. *)
Theorem root_route_dispatch_by_role (auth : AuthContext) (u : User) :
  user auth = Some u →
  loading auth = false →
  (role u = "admin" → App auth "/" = AdminDashboardElement) ∧
  (role u ≠ "admin" → App auth "/" = UserDashboardElement) ∧
  App auth "/" = DashboardRouter auth ∧
  (∀ auth' u',
     user auth' = Some u' → loading auth' = false → role u' = role u →
     App auth' "/" = App auth "/").
Proof.
  intros Hu Hl.
  assert (Hroot : ∀ a v, user a = Some v → loading a = false →
            App a "/" = if String.eqb (role v) "admin"
                        then AdminDashboardElement else UserDashboardElement).
  { intros a v Ha Hb. unfold App, ProtectedRoute, DashboardRouter. simpl.
    by rewrite Hb, Ha. }
  repeat split.
  - intros Hr. rewrite (Hroot _ _ Hu Hl).
    apply role_test_admin in Hr. by rewrite Hr.
  - intros Hr. rewrite (Hroot _ _ Hu Hl).
    apply role_test_other in Hr. by rewrite Hr.
  - rewrite (Hroot _ _ Hu Hl). unfold DashboardRouter. by rewrite Hu.
  - intros auth' u' Hu' Hl' Hr.
    rewrite (Hroot _ _ Hu Hl), (Hroot _ _ Hu' Hl'). by rewrite Hr.
Qed.

Lemma root_route_dispatch_by_role_witness :
  App (Sample.settled Sample.alice) "/" = AdminDashboardElement.
Proof.
  destruct (root_route_dispatch_by_role (Sample.settled Sample.alice)
              Sample.alice) as (H & _).
  - reflexivity.
  - reflexivity.
  - apply H. reflexivity.
Defined.

(** ** The request interceptor *)

Lemma interceptor_with_token st c t :
  getItem st "token" = Some t → t ≠ "" →
  request_interceptor st c =
    set_headers (<["Authorization" := "Bearer " +:+ t]> (headers c)) c.
Proof.
  intros Ht Hne. unfold request_interceptor. rewrite Ht.
  apply truthy_nonempty in Hne. by rewrite Hne.
Qed.

Lemma interceptor_without_token st c :
  (getItem st "token" = None ∨ getItem st "token" = Some "") →
  request_interceptor st c = c.
Proof.
  intros [H | H]; unfold request_interceptor; by rewrite H.
Qed.

(** The interceptor touches nothing but the headers. *)
Lemma interceptor_frame st c :
  let c' := request_interceptor st c in
  method c' = method c ∧ baseURL c' = baseURL c ∧ url c' = url c ∧
  body c' = body c ∧ responseType c' = responseType c.
Proof.
  unfold request_interceptor.
  destruct (getItem st "token") as [t|]; [|done].
  by destruct (Js.truthy t).
Qed.

(** Headers other than [Authorization] pass through unchanged. *)
Lemma interceptor_other_headers st c k :
  k ≠ "Authorization" →
  headers (request_interceptor st c) !! k = headers c !! k.
Proof.
  intros Hk. unfold request_interceptor.
  destruct (getItem st "token") as [t|]; [|done].
  destruct (Js.truthy t); [|done].
  simpl. by rewrite lookup_insert_ne.
Qed.

Lemma interceptor_header_iff st c :
  headers c !! "Authorization" = None →
  is_Some (headers (request_interceptor st c) !! "Authorization")
  ↔ ∃ t, getItem st "token" = Some t ∧ t ≠ "".
Proof.
  intros Hc. unfold request_interceptor.
  destruct (getItem st "token") as [t|] eqn:Ht.
  - destruct (Js.truthy t) eqn:Htr.
    + simpl. rewrite lookup_insert_eq. split; [|eauto].
      intros _. exists t. split; [done|]. by apply truthy_nonempty.
    + rewrite Hc. split; [by intros [? ?]|].
      intros (t' & [= <-] & Hne). apply truthy_nonempty in Hne. congruence.
  - rewrite Hc. split; [by intros [? ?]|]. by intros (? & ? & ?).
Qed.

Lemma getItem_removeItem st k : getItem (removeItem st k) k = None.
Proof. unfold getItem, removeItem. apply lookup_delete_eq. Qed.

(** C1, as the code has it.  A request issued through the [api] instance
    whose own configuration sets no Authorization header leaves with an
    Authorization header if and only if local storage holds a non-empty
    token at that time, and the header is then [Bearer <token>]; with no
    token stored, in particular once the token has been removed from
    storage, it leaves without an Authorization header. *)
Theorem api_request_authorization {S} (w : World) (s : S) m path h b rt :
  h !! "Authorization" = None →
  let c := outgoing w m path h b rt in
  effects (api_request m path h b rt w s) = [Sent c] ∧
  (is_Some (headers c !! "Authorization")
   ↔ ∃ t, getItem (localStorage w) "token" = Some t ∧ t ≠ "") ∧
  (∀ t, getItem (localStorage w) "token" = Some t → t ≠ "" →
        headers c !! "Authorization" = Some ("Bearer " +:+ t)) ∧
  (getItem (localStorage w) "token" = None →
   headers c !! "Authorization" = None) ∧
  (∀ w', localStorage w' = removeItem (localStorage w) "token" →
         headers (outgoing w' m path h b rt) !! "Authorization" = None).
Proof.
  intros Hh c. split; [reflexivity|]. split; [|split; [|split]].
  - by apply interceptor_header_iff.
  - intros t Ht Hne. subst c. unfold outgoing.
    rewrite (interceptor_with_token _ _ t Ht Hne). simpl.
    apply lookup_insert_eq.
  - intros Ht. subst c. unfold outgoing.
    by rewrite interceptor_without_token by auto.
  - intros w' Hw'. unfold outgoing. rewrite Hw'.
    rewrite interceptor_without_token; [done|].
    left. apply getItem_removeItem.
Qed.

Lemma api_request_authorization_witness :
  headers (outgoing Sample.signed_in GET "/reports" ∅ None None)
    !! "Authorization" = Some "Bearer abc".
Proof.
  destruct (api_request_authorization (S := unit) Sample.signed_in tt
              GET "/reports" ∅ None None) as (_ & _ & H & _).
  - reflexivity.
  - apply (H "abc"); [reflexivity | discriminate].
Defined.

(** C1, as stated, fails when the stored token is the empty string: a
    token string is present in local storage, yet the request leaves
    without an Authorization header. *)
Lemma blank_token_sent_without_header :
  ¬ (is_Some (getItem (localStorage Sample.blank_token) "token")
     ↔ is_Some (headers (outgoing Sample.blank_token GET "/reports" ∅
                           None None) !! "Authorization")).
Proof.
  intros [H _].
  destruct H as [v Hv]; [by eexists|].
  vm_compute in Hv. discriminate.
Qed.

(** No call site of the dashboards sets an Authorization header itself. *)
Lemma call_sites_leave_authorization_unset :
  (∅ : gmap string string) !! "Authorization" = None ∧
  AdminDashboard.MULTIPART !! "Authorization" = None.
Proof. split; reflexivity. Qed.

Lemma outgoing_frame w m path h b rt :
  let c := outgoing w m path h b rt in
  method c = m ∧ baseURL c = backendUrl (REACT_APP_BACKEND_URL w) ∧
  url c = path ∧ body c = b ∧ responseType c = rt.
Proof. unfold outgoing. apply interceptor_frame. Qed.

(** The base URL is the environment override when it is set and not empty,
    and the built-in default otherwise. *)
Lemma backendUrl_override u : u ≠ "" → backendUrl (Some u) = u.
Proof. apply or_else_nonempty. Qed.

Lemma backendUrl_default env :
  env = None ∨ env = Some "" → backendUrl env = DEFAULT_BACKEND_URL.
Proof. by intros [-> | ->]. Qed.

(** ** Running handlers *)

Ltac run :=
  unfold try_catch, fire_and_forget, await_all2, await, api_get, api_post,
    api_delete, api_request, toast_error, toast_success, emit, world,
    get_state, modify, throw, mbind, M_bind, bind, mret, M_ret, ret;
  cbn -[outgoing].

Section Admin.
Import AdminDashboard.

Implicit Types (w : World) (s : State).

(** What a refresh does, by the way its two requests settle. *)
Lemma fetchData_run w s :
  fetchData w s =
    match network w (reportsRequest w), network w (usersRequest w) with
    | Resolved rr, Resolved ur =>
        (inr tt,
         {| reports := data rr; users := data ur;
            selectedUser := selectedUser s; file := file s |},
         [Sent (reportsRequest w); Sent (usersRequest w)])
    | _, _ =>
        (inr tt, s,
         [Sent (reportsRequest w); Sent (usersRequest w);
          Toast ToastError "Failed to fetch dashboard data"])
    end.
Proof.
  unfold fetchData, setReports, setUsers, reportsRequest, usersRequest. run.
  destruct (network w (outgoing w GET "/reports" ∅ None None));
    destruct (network w (outgoing w GET "/users" ∅ None None)); reflexivity.
Qed.

Lemma fetchData_never_throws w s : outcome (fetchData w s) = inr tt.
Proof.
  rewrite fetchData_run.
  destruct (network w (reportsRequest w)), (network w (usersRequest w));
    reflexivity.
Qed.

Lemma fetchData_sent w s :
  sent (effects (fetchData w s)) = [reportsRequest w; usersRequest w].
Proof.
  rewrite fetchData_run.
  destruct (network w (reportsRequest w)), (network w (usersRequest w));
    reflexivity.
Qed.

(** A refresh never touches the upload form. *)
Lemma fetchData_form_frame w s :
  selectedUser (final (fetchData w s)) = selectedUser s ∧
  file (final (fetchData w s)) = file s.
Proof.
  rewrite fetchData_run.
  destruct (network w (reportsRequest w)), (network w (usersRequest w));
    done.
Qed.

(** What an upload does once the form is complete. *)
Lemma handleUpload_run w s f :
  file s = Some f → selectedUser s ≠ "" →
  let req := uploadRequest w f (selectedUser s) in
  let cleared := {| reports := reports s; users := users s;
                    selectedUser := ""; file := None |} in
  handleUpload w s =
    match network w req with
    | Resolved _ =>
        (inr tt, final (fetchData w cleared),
         [PreventDefault; Sent req;
          Toast ToastSuccess "Report uploaded successfully"]
           ++ effects (fetchData w cleared))
    | Rejected err =>
        (inr tt, s,
         [PreventDefault; Sent req;
          Toast ToastError (Js.or_else (error_detail err) "Upload failed")])
    end.
Proof.
  intros Hf Hu req cleared. subst req cleared.
  apply truthy_nonempty in Hu.
  unfold handleUpload, uploadRequest, setFile, setSelectedUser. run.
  rewrite Hf, Hu. run.
  destruct (network w _); [|reflexivity].
  cbn -[outgoing fetchData].
  destruct (fetchData w _) as [[res s'] l]. reflexivity.
Qed.

(** C4. When the selected file is missing or no target user is selected,
    the upload handler puts no request on the wire, shows the validation
    notice, and leaves the dashboard state as it was. *)
Theorem handleUpload_validation w s :
  file s = None ∨ selectedUser s = "" →
  sent (effects (handleUpload w s)) = [] ∧
  toasts (effects (handleUpload w s))
    = [(ToastError, "Please select both a file and a user")] ∧
  final (handleUpload w s) = s ∧
  outcome (handleUpload w s) = inr tt.
Proof.
  intros H. unfold handleUpload. run.
  destruct H as [H | H].
  - by rewrite H.
  - destruct (file s); [|done]. by rewrite H.
Qed.

Lemma handleUpload_validation_witness :
  sent (effects (handleUpload Sample.signed_in Sample.form_without_file))
  = [].
Proof.
  destruct (handleUpload_validation Sample.signed_in
              Sample.form_without_file) as (H & _).
  - left. reflexivity.
  - exact H.
Defined.

(** C5. A refresh puts both list requests on the wire before it looks at
    either result and never throws.  When both resolve, the two
    collections take the two response bodies and no notice is shown; when
    either rejects, the failure notice is shown and the state, both
    collections included, is left as it was. *)
Theorem fetchData_all_or_nothing w s :
  sent (effects (fetchData w s)) = [reportsRequest w; usersRequest w] ∧
  (method (reportsRequest w), url (reportsRequest w)) = (GET, "/reports") ∧
  (method (usersRequest w), url (usersRequest w)) = (GET, "/users") ∧
  outcome (fetchData w s) = inr tt ∧
  selectedUser (final (fetchData w s)) = selectedUser s ∧
  file (final (fetchData w s)) = file s ∧
  match network w (reportsRequest w), network w (usersRequest w) with
  | Resolved reportsRes, Resolved usersRes =>
      reports (final (fetchData w s)) = data reportsRes ∧
      users (final (fetchData w s)) = data usersRes ∧
      toasts (effects (fetchData w s)) = []
  | _, _ =>
      final (fetchData w s) = s ∧
      toasts (effects (fetchData w s))
        = [(ToastError, "Failed to fetch dashboard data")]
  end.
Proof.
  pose proof (outgoing_frame w GET "/reports" ∅ None None) as (Hm1 & _ & Hu1 & _).
  pose proof (outgoing_frame w GET "/users" ∅ None None) as (Hm2 & _ & Hu2 & _).
  fold (reportsRequest w) in Hm1, Hu1. fold (usersRequest w) in Hm2, Hu2.
  rewrite Hm1, Hu1, Hm2, Hu2.
  rewrite fetchData_run.
  destruct (network w (reportsRequest w)), (network w (usersRequest w));
    done.
Qed.

(** C6, as the code has it.  With a file and a target user selected, the
    upload request is issued.  When it resolves, the success notice is
    shown, the selected file and the selected user are reset, and the lists
    are refreshed: GET /reports and GET /users are sent, and when both
    resolve the report list and the user list become the two response
    bodies, while a rejection of either keeps both lists and adds the
    refresh-failure notice.  When the upload request rejects, exactly one
    error notice is shown: the detail text of the server response when
    there is one and it is not empty, and 'Upload failed' when the error
    carries no response, no detail, or an empty detail. *)
Theorem handleUpload_settles w s f :
  file s = Some f → selectedUser s ≠ "" →
  let req := uploadRequest w f (selectedUser s) in
  let cleared := {| reports := reports s; users := users s;
                    selectedUser := ""; file := None |} in
  (method req, url req) = (POST, "/reports/upload") ∧
  body req = Some [("file", FormFile f);
                   ("user_email", FormText (selectedUser s))] ∧
  match network w req with
  | Resolved _ =>
      effects (handleUpload w s)
        = [PreventDefault; Sent req;
           Toast ToastSuccess "Report uploaded successfully"]
            ++ effects (fetchData w cleared) ∧
      final (handleUpload w s) = final (fetchData w cleared) ∧
      file (final (handleUpload w s)) = None ∧
      selectedUser (final (handleUpload w s)) = "" ∧
      sent (effects (handleUpload w s))
        = [req; reportsRequest w; usersRequest w] ∧
      (method (reportsRequest w), url (reportsRequest w))
        = (GET, "/reports") ∧
      (method (usersRequest w), url (usersRequest w)) = (GET, "/users") ∧
      match network w (reportsRequest w), network w (usersRequest w) with
      | Resolved reportsRes, Resolved usersRes =>
          reports (final (handleUpload w s)) = data reportsRes ∧
          users (final (handleUpload w s)) = data usersRes ∧
          toasts (effects (handleUpload w s))
            = [(ToastSuccess, "Report uploaded successfully")]
      | _, _ =>
          reports (final (handleUpload w s)) = reports s ∧
          users (final (handleUpload w s)) = users s ∧
          toasts (effects (handleUpload w s))
            = [(ToastSuccess, "Report uploaded successfully");
               (ToastError, "Failed to fetch dashboard data")]
      end
  | Rejected err =>
      sent (effects (handleUpload w s)) = [req] ∧
      (∀ m, error_detail err = Some m → m ≠ "" →
            toasts (effects (handleUpload w s)) = [(ToastError, m)]) ∧
      (error_detail err = None ∨ error_detail err = Some "" →
       toasts (effects (handleUpload w s)) = [(ToastError, "Upload failed")])
  end.
Proof.
  intros Hf Hu req cleared.
  pose proof (outgoing_frame w POST "/reports/upload" MULTIPART
                (Some [("file", FormFile f);
                       ("user_email", FormText (selectedUser s))]) None)
    as (Hm & _ & Hp & Hb & _).
  fold (uploadRequest w f (selectedUser s)) in Hm, Hp, Hb. fold req in Hm, Hp, Hb.
  split; [by rewrite Hm, Hp|]. split; [done|].
  rewrite (handleUpload_run w s f Hf Hu). fold req cleared.
  destruct (network w req) as [res | err].
  - pose proof (fetchData_sent w cleared) as Hs.
    pose proof (fetchData_form_frame w cleared) as [Hsel Hfile].
    pose proof (outgoing_frame w GET "/reports" ∅ None None)
      as (Hrm & _ & Hru & _).
    pose proof (outgoing_frame w GET "/users" ∅ None None)
      as (Hum & _ & Huu & _).
    fold (reportsRequest w) in Hrm, Hru. fold (usersRequest w) in Hum, Huu.
    rewrite Hrm, Hru, Hum, Huu.
    split; [done|]. split; [done|]. split; [done|]. split; [done|].
    split; [unfold effects, sent in *; cbn -[fetchData]; by rewrite Hs|].
    split; [done|]. split; [done|].
    rewrite fetchData_run.
    destruct (network w (reportsRequest w)), (network w (usersRequest w));
      done.
  - unfold effects. cbn. repeat split.
    + intros m Hdet Hne. rewrite Hdet. by rewrite or_else_nonempty.
    + intros [-> | ->]; reflexivity.
Qed.

Lemma handleUpload_settles_witness :
  toasts (effects (handleUpload Sample.upload_refused Sample.form_filled))
  = [(ToastError, "Unsupported file type")] ∧
  reports (final (handleUpload Sample.signed_in Sample.form_filled))
  = ReportList [Sample.lipid_report].
Proof.
  split.
  - pose proof (handleUpload_settles Sample.upload_refused
                  Sample.form_filled Sample.lipid_panel) as H.
    cbv zeta in H.
    change (network Sample.upload_refused
              (uploadRequest Sample.upload_refused Sample.lipid_panel
                 (selectedUser Sample.form_filled)))
      with (Sample.refused (Some "Unsupported file type")) in H.
    destruct H as (_ & _ & _ & H & _).
    + reflexivity.
    + discriminate.
    + apply H; [reflexivity | discriminate].
  - pose proof (handleUpload_settles Sample.signed_in Sample.form_filled
                  Sample.lipid_panel) as H.
    cbv zeta in H.
    change (network Sample.signed_in
              (uploadRequest Sample.signed_in Sample.lipid_panel
                 (selectedUser Sample.form_filled)))
      with (Sample.ok NoBody) in H.
    change (network Sample.signed_in (reportsRequest Sample.signed_in))
      with (Sample.ok (ReportList [Sample.lipid_report])) in H.
    change (network Sample.signed_in (usersRequest Sample.signed_in))
      with (Sample.ok (UserList [{| row_id := "1";
                                    row_email := "patient@example.com" |}]))
      in H.
    destruct H as (_ & _ & _ & _ & _ & _ & _ & _ & _ & H & _).
    + reflexivity.
    + discriminate.
    + exact H.
Defined.

(** C6, as stated, fails when the server's rejection carries an empty
    detail: the response contains a detail text, yet the notice shown is
    the generic one and not that text. *)
Lemma blank_detail_shown_as_generic :
  ¬ (∀ err m,
       network Sample.upload_refused_blank
         (uploadRequest Sample.upload_refused_blank Sample.lipid_panel
            (selectedUser Sample.form_filled)) = Rejected err →
       error_detail err = Some m →
       toasts (effects (handleUpload Sample.upload_refused_blank
                          Sample.form_filled))
       = [(ToastError, m)]).
Proof.
  intros H.
  specialize (H {| response := Some {| status := 400;
                                       data := ErrorBody (Some "") |} |}
                "" eq_refl eq_refl).
  vm_compute in H. discriminate.
Qed.

(** C10. When the upload request rejects, the handler changes nothing in
    the dashboard state: selected file, selected user and both collections
    keep their values.  It sends nothing after the upload request, shows
    one error notice and returns normally. *)
Theorem handleUpload_failure_frame w s f err :
  file s = Some f → selectedUser s ≠ "" →
  network w (uploadRequest w f (selectedUser s)) = Rejected err →
  final (handleUpload w s) = s ∧
  sent (effects (handleUpload w s)) = [uploadRequest w f (selectedUser s)] ∧
  (∃ notice, toasts (effects (handleUpload w s)) = [(ToastError, notice)]) ∧
  outcome (handleUpload w s) = inr tt.
Proof.
  intros Hf Hu Hnet.
  rewrite (handleUpload_run w s f Hf Hu). cbv zeta. rewrite Hnet.
  repeat split. eexists. reflexivity.
Qed.

Lemma handleUpload_failure_frame_witness :
  final (handleUpload Sample.upload_refused Sample.form_filled)
  = Sample.form_filled.
Proof.
  destruct (handleUpload_failure_frame Sample.upload_refused
              Sample.form_filled Sample.lipid_panel
              {| response := Some {| status := 400;
                   data := ErrorBody (Some "Unsupported file type") |} |})
    as (H & _).
  - reflexivity.
  - discriminate.
  - reflexivity.
  - exact H.
Defined.

Lemma handleDelete_run w s id :
  handleDelete id w s =
    if window_confirm w CONFIRM_DELETE then
      match network w (deleteRequest w id) with
      | Resolved _ =>
          (inr tt, final (fetchData w s),
           [ConfirmDialog CONFIRM_DELETE true; Sent (deleteRequest w id);
            Toast ToastSuccess "Report deleted"] ++ effects (fetchData w s))
      | Rejected _ =>
          (inr tt, s,
           [ConfirmDialog CONFIRM_DELETE true; Sent (deleteRequest w id);
            Toast ToastError "Delete failed"])
      end
    else (inr tt, s, [ConfirmDialog CONFIRM_DELETE false]).
Proof.
  unfold handleDelete, deleteRequest. run.
  destruct (window_confirm w CONFIRM_DELETE); [|done].
  cbn -[outgoing fetchData].
  destruct (network w _); [|done].
  cbn -[outgoing fetchData]. by destruct (fetchData w s) as [[? ?] ?].
Qed.

(** C7. Deleting first asks for confirmation.  When it is declined, nothing
    is sent and nothing changes.  When it is granted, the delete request
    for that identifier is sent after the dialog.  If it resolves, the
    success notice is shown and the lists are refreshed: GET /reports and
    GET /users are sent, and when both resolve the report list and the user
    list become the two response bodies, while a rejection of either keeps
    the state and adds the refresh-failure notice.  If the delete request
    rejects, the notice 'Delete failed' is shown and the state is kept.  In
    every case the handler returns normally. *)
Theorem handleDelete_confirmed_only w s id :
  outcome (handleDelete id w s) = inr tt ∧
  method (deleteRequest w id) = DELETE ∧
  url (deleteRequest w id) = "/reports/" +:+ id ∧
  (method (reportsRequest w), url (reportsRequest w)) = (GET, "/reports") ∧
  (method (usersRequest w), url (usersRequest w)) = (GET, "/users") ∧
  if window_confirm w CONFIRM_DELETE then
    match network w (deleteRequest w id) with
    | Resolved _ =>
        effects (handleDelete id w s)
          = [ConfirmDialog CONFIRM_DELETE true; Sent (deleteRequest w id);
             Toast ToastSuccess "Report deleted"]
              ++ effects (fetchData w s) ∧
        final (handleDelete id w s) = final (fetchData w s) ∧
        sent (effects (handleDelete id w s))
          = [deleteRequest w id; reportsRequest w; usersRequest w] ∧
        selectedUser (final (handleDelete id w s)) = selectedUser s ∧
        file (final (handleDelete id w s)) = file s ∧
        match network w (reportsRequest w), network w (usersRequest w) with
        | Resolved reportsRes, Resolved usersRes =>
            reports (final (handleDelete id w s)) = data reportsRes ∧
            users (final (handleDelete id w s)) = data usersRes ∧
            effects (handleDelete id w s)
              = [ConfirmDialog CONFIRM_DELETE true;
                 Sent (deleteRequest w id);
                 Toast ToastSuccess "Report deleted";
                 Sent (reportsRequest w); Sent (usersRequest w)]
        | _, _ =>
            final (handleDelete id w s) = s ∧
            effects (handleDelete id w s)
              = [ConfirmDialog CONFIRM_DELETE true;
                 Sent (deleteRequest w id);
                 Toast ToastSuccess "Report deleted";
                 Sent (reportsRequest w); Sent (usersRequest w);
                 Toast ToastError "Failed to fetch dashboard data"]
        end
    | Rejected _ =>
        effects (handleDelete id w s)
          = [ConfirmDialog CONFIRM_DELETE true; Sent (deleteRequest w id);
             Toast ToastError "Delete failed"] ∧
        final (handleDelete id w s) = s
    end
  else
    effects (handleDelete id w s) = [ConfirmDialog CONFIRM_DELETE false] ∧
    sent (effects (handleDelete id w s)) = [] ∧
    final (handleDelete id w s) = s.
Proof.
  pose proof (outgoing_frame w DELETE ("/reports/" +:+ id) ∅ None None)
    as (Hdm & _ & Hdu & _).
  pose proof (outgoing_frame w GET "/reports" ∅ None None)
    as (Hrm & _ & Hru & _).
  pose proof (outgoing_frame w GET "/users" ∅ None None)
    as (Hum & _ & Huu & _).
  fold (deleteRequest w id) in Hdm, Hdu.
  fold (reportsRequest w) in Hrm, Hru. fold (usersRequest w) in Hum, Huu.
  rewrite Hdm, Hdu, Hrm, Hru, Hum, Huu.
  rewrite handleDelete_run.
  destruct (window_confirm w CONFIRM_DELETE); [|done].
  destruct (network w (deleteRequest w id)); [|done].
  rewrite fetchData_run.
  destruct (network w (reportsRequest w)), (network w (usersRequest w));
    done.
Qed.

(** On the sample server a granted delete ends with the lists the server
    returned. *)
Example handleDelete_refresh_sample :
  reports (final (deleteButton Sample.lipid_report Sample.signed_in
                    Sample.form_filled))
  = ReportList [Sample.lipid_report] ∧
  users (final (deleteButton Sample.lipid_report Sample.signed_in
                  Sample.form_filled))
  = UserList [{| row_id := "1"; row_email := "patient@example.com" |}].
Proof. vm_compute. done. Qed.

(** On the sample server a granted delete is followed by both list
    requests, each carrying the bearer token. *)
Example handleDelete_sample :
  map (λ c, (method c, url c, headers c !! "Authorization"))
      (sent (effects (deleteButton Sample.lipid_report Sample.signed_in
                        Sample.form_filled)))
  = [(DELETE, "/reports/42", Some "Bearer abc");
     (GET, "/reports", Some "Bearer abc");
     (GET, "/users", Some "Bearer abc")].
Proof. vm_compute. reflexivity. Qed.

(** An empty detail in the rejection is shown as the generic notice. *)
Example handleUpload_blank_detail :
  toasts (effects (handleUpload Sample.upload_refused_blank
                     Sample.form_filled))
  = [(ToastError, "Upload failed")].
Proof. vm_compute. reflexivity. Qed.

End Admin.

Section Patient.
Import UserDashboard.

Implicit Types (w : World) (s : State).

(** C9. Downloading requests the report's download endpoint as a blob.
    When the request resolves, the content received is offered as a local
    file save under exactly the file name handed to the handler; when it
    rejects, the notice 'Download failed' is shown.  The download button of
    a report card hands over the report's original name. *)
Theorem handleDownload_saves_as w s reportId filename :
  let req := downloadRequest w reportId in
  method req = GET ∧
  url req = "/reports/" +:+ reportId +:+ "/download" ∧
  responseType req = Some "blob" ∧
  outcome (handleDownload reportId filename w s) = inr tt ∧
  final (handleDownload reportId filename w s) = s ∧
  match network w req with
  | Resolved res =>
      effects (handleDownload reportId filename w s)
        = [Sent req; LinkClick (ObjectURL (data res)) filename]
  | Rejected _ =>
      effects (handleDownload reportId filename w s)
        = [Sent req; Toast ToastError "Download failed"]
  end ∧
  ∀ r : Report,
    downloadButton r = handleDownload (report_id r) (original_name r).
Proof.
  intros req. subst req.
  split; [apply outgoing_frame|]. split; [apply outgoing_frame|].
  split; [apply outgoing_frame|].
  unfold handleDownload, downloadRequest. run.
  destruct (network w _); done.
Qed.

(** C8. Previewing sends nothing through the HTTP client.  It opens one new
    browsing context, on the address made of the configured base URL (the
    environment override when it is set and not empty, the built-in default
    otherwise, the same base the HTTP client uses), the path of the
    report's preview endpoint, and the stored token as the [token] query
    parameter. *)
Theorem handlePreview_opens_preview w s reportId :
  let base := backendUrl (REACT_APP_BACKEND_URL w) in
  (∀ u, REACT_APP_BACKEND_URL w = Some u → u ≠ "" → base = u) ∧
  (REACT_APP_BACKEND_URL w = None ∨ REACT_APP_BACKEND_URL w = Some "" →
   base = "https://lab-report-hub-1.preview.emergentagent.com/api") ∧
  baseURL (downloadRequest w reportId) = base ∧
  sent (effects (handlePreview reportId w s)) = [] ∧
  final (handlePreview reportId w s) = s ∧
  outcome (handlePreview reportId w s) = inr tt ∧
  match getItem (localStorage w) "token" with
  | Some token =>
      effects (handlePreview reportId w s)
        = [WindowOpen
             (base +:+ "/reports/" +:+ reportId +:+ "/preview?token="
                +:+ token)
             "_blank"]
  | None =>
      effects (handlePreview reportId w s)
        = [WindowOpen
             (base +:+ "/reports/" +:+ reportId +:+ "/preview?token=null")
             "_blank"]
  end.
Proof.
  intros base. subst base.
  split; [intros u -> Hu; by apply backendUrl_override|].
  split; [apply backendUrl_default|].
  split; [apply outgoing_frame|].
  unfold handlePreview. run.
  repeat split. by destruct (getItem (localStorage w) "token").
Qed.

Lemma handlePreview_opens_preview_witness :
  effects (handlePreview "42" Scenario.local_backend initial)
  = [WindowOpen "http://localhost:8000/api/reports/42/preview?token=abc"
       "_blank"].
Proof.
  pose proof (handlePreview_opens_preview Scenario.local_backend initial
                "42") as H.
  cbv zeta in H. destruct H as (Hbase & _ & _ & _ & _ & _ & H).
  specialize (Hbase "http://localhost:8000/api" eq_refl).
  rewrite Hbase in H; [exact H | discriminate].
Defined.

Example handlePreview_sample :
  effects (previewButton Sample.lipid_report Sample.signed_in initial)
  = [WindowOpen
       "https://lab-report-hub-1.preview.emergentagent.com/api/reports/42/preview?token=abc"
       "_blank"].
Proof. vm_compute. reflexivity. Qed.

Example handleDownload_sample :
  drop 1
    (effects (downloadButton Sample.lipid_report Sample.signed_in initial))
  = [LinkClick (ObjectURL (Binary "%PDF-1.4")) "lipid_panel.pdf"].
Proof. vm_compute. reflexivity. Qed.

End Patient.

(** * Further properties of the code *)

(** ** lib/api *)

(** X1. The interceptor changes nothing but the Authorization header: method,
    base URL, path, body, response type and every other header of the
    request pass through as the caller set them. *)
Theorem interceptor_changes_only_authorization st c :
  method (request_interceptor st c) = method c ∧
  baseURL (request_interceptor st c) = baseURL c ∧
  url (request_interceptor st c) = url c ∧
  body (request_interceptor st c) = body c ∧
  responseType (request_interceptor st c) = responseType c ∧
  ∀ k, k ≠ "Authorization" →
       headers (request_interceptor st c) !! k = headers c !! k.
Proof.
  pose proof (interceptor_frame st c) as (Hm & Hb & Hu & Hd & Hr).
  repeat split; try done.
  intros k Hk. by apply interceptor_other_headers.
Qed.

(** X2. Passing a request through the interceptor twice gives what passing it
    once gives. *)
Theorem interceptor_idempotent st c :
  request_interceptor st (request_interceptor st c)
  = request_interceptor st c.
Proof.
  unfold request_interceptor.
  destruct (getItem st "token") as [t|]; [|done].
  destruct (Js.truthy t); [|done].
  unfold set_headers. simpl. by rewrite insert_insert_eq.
Qed.

(** X3. A stored non-empty token replaces whatever Authorization header the
    caller had set; with no token, or an empty one, the caller's headers
    are left as they are, an Authorization header among them included. *)
Theorem interceptor_token_overrides_caller st c :
  (∀ t, getItem st "token" = Some t → t ≠ "" →
        headers (request_interceptor st c) !! "Authorization"
        = Some ("Bearer " +:+ t)) ∧
  (getItem st "token" = None ∨ getItem st "token" = Some "" →
   headers (request_interceptor st c) = headers c).
Proof.
  split.
  - intros t Ht Hne. rewrite (interceptor_with_token st c t Ht Hne).
    simpl. apply lookup_insert_eq.
  - intros H. by rewrite interceptor_without_token.
Qed.

(** X4. The base URL is never empty: it is the environment override when that
    is set and not empty, and the built-in default in every other case.
    Every request of the client leaves with that base URL. *)
Theorem backendUrl_never_empty env :
  backendUrl env ≠ "" ∧
  (backendUrl env = DEFAULT_BACKEND_URL ∨ env = Some (backendUrl env)) ∧
  (∀ u, env = Some u → u ≠ "" → backendUrl env = u) ∧
  ∀ w m path h b rt,
    REACT_APP_BACKEND_URL w = env →
    baseURL (outgoing w m path h b rt) = backendUrl env.
Proof.
  repeat split.
  - unfold backendUrl, Js.or_else. destruct env as [u|]; [|done].
    destruct (Js.truthy u) eqn:Hu; [|done]. by apply truthy_nonempty.
  - unfold backendUrl, Js.or_else. destruct env as [u|]; [|by left].
    destruct (Js.truthy u); [by right | by left].
  - intros u -> Hu. by apply backendUrl_override.
  - intros w m path h b rt <-. apply outgoing_frame.
Qed.

(** ** App.js *)

Lemma root_route_cases auth :
  ProtectedRoute auth (DashboardRouter auth) false =
    if loading auth then LoadingScreen
    else match user auth with
         | None => Navigate "/login"
         | Some u => if String.eqb (role u) "admin"
                     then AdminDashboardElement else UserDashboardElement
         end.
Proof.
  unfold ProtectedRoute, DashboardRouter.
  destruct (loading auth); [done|]. by destruct (user auth).
Qed.

(** X5. On the paths of the route table the application redirects in one
    situation only: on the root path, once session restoration is settled
    and nobody is authenticated, and then to the login view.  The root path
    never redirects to itself, and the sign-in paths never redirect. *)
Theorem App_redirects_only_to_login auth to :
  (App auth "/" = Navigate to
   ↔ loading auth = false ∧ user auth = None ∧ to = "/login") ∧
  App auth "/" ≠ Navigate "/" ∧
  App auth "/login" ≠ Navigate to ∧
  App auth "/register" ≠ Navigate to.
Proof.
  assert (Hroot : ∀ t, App auth "/" = Navigate t
            ↔ loading auth = false ∧ user auth = None ∧ t = "/login").
  { intros t. change (App auth "/")
      with (ProtectedRoute auth (DashboardRouter auth) false).
    rewrite root_route_cases. split.
    - destruct (loading auth); [discriminate|].
      destruct (user auth) as [u|].
      + by destruct (String.eqb (role u) "admin").
      + by intros [= <-].
    - by intros (-> & -> & ->). }
  split; [apply Hroot|]. split; [|done].
  intros H. apply Hroot in H as (_ & _ & ?). discriminate.
Qed.

(** X6. On the root path the admin dashboard is rendered exactly for a
    settled session of a user whose role is 'admin'; the sign-in paths
    never render it. *)
Theorem admin_dashboard_only_for_admin auth :
  (App auth "/" = AdminDashboardElement
   ↔ loading auth = false ∧ ∃ u, user auth = Some u ∧ role u = "admin") ∧
  App auth "/login" ≠ AdminDashboardElement ∧
  App auth "/register" ≠ AdminDashboardElement.
Proof.
  split; [|done].
  change (App auth "/")
    with (ProtectedRoute auth (DashboardRouter auth) false).
  rewrite root_route_cases. split.
  - destruct (loading auth); [discriminate|].
    destruct (user auth) as [u|]; [|discriminate].
    destruct (String.eqb_spec (role u) "admin"); [|discriminate].
    intros _. eauto.
  - intros (-> & u & -> & Hr). apply role_test_admin in Hr.
    by rewrite Hr.
Qed.

(** X7. On the root path the user dashboard is rendered exactly for a
    settled session of a user whose role is anything but 'admin': without a
    user, or while restoration is pending, no dashboard is rendered.  The
    sign-in paths never render it. *)
Theorem user_dashboard_only_for_others auth :
  (App auth "/" = UserDashboardElement
   ↔ loading auth = false ∧ ∃ u, user auth = Some u ∧ role u ≠ "admin") ∧
  App auth "/login" ≠ UserDashboardElement ∧
  App auth "/register" ≠ UserDashboardElement.
Proof.
  split; [|done].
  change (App auth "/")
    with (ProtectedRoute auth (DashboardRouter auth) false).
  rewrite root_route_cases. split.
  - destruct (loading auth); [discriminate|].
    destruct (user auth) as [u|]; [|discriminate].
    destruct (String.eqb_spec (role u) "admin"); [discriminate|].
    intros _. eauto.
  - intros (-> & u & -> & Hr). apply role_test_other in Hr.
    by rewrite Hr.
Qed.

(** X8. Protected content that is not itself a loading screen or a redirect is
    handed over by the gate exactly when session restoration is settled and
    a user is present who, on an admin-only region, has the role 'admin'. *)
Theorem ProtectedRoute_lets_through auth children requireAdmin :
  children ≠ LoadingScreen →
  (∀ to, children ≠ Navigate to) →
  ProtectedRoute auth children requireAdmin = children
  ↔ loading auth = false ∧
    ∃ u, user auth = Some u ∧ (requireAdmin = true → role u = "admin").
Proof.
  intros Hl Hn. unfold ProtectedRoute. split.
  - destruct (loading auth); [by intros <-|].
    destruct (user auth) as [u|]; [|by intros H; symmetry in H; apply Hn in H].
    destruct requireAdmin; simpl.
    + destruct (String.eqb_spec (role u) "admin"); simpl.
      * eauto.
      * intros H. symmetry in H. by apply Hn in H.
    + intros _. split; [done|]. exists u. by split.
  - intros (-> & u & -> & Hr).
    destruct requireAdmin; [|done].
    specialize (Hr eq_refl). apply role_test_admin in Hr. by rewrite Hr.
Qed.

Lemma interceptor_token_overrides_caller_witness :
  headers (request_interceptor Scenario.token_store Scenario.with_basic_auth)
    !! "Authorization" = Some "Bearer abc".
Proof.
  destruct (interceptor_token_overrides_caller Scenario.token_store
              Scenario.with_basic_auth) as [H _].
  apply (H "abc"); [reflexivity | discriminate].
Defined.

Lemma ProtectedRoute_lets_through_witness :
  ProtectedRoute (Sample.settled Sample.bob) UserDashboardElement false
  = UserDashboardElement.
Proof.
  apply ProtectedRoute_lets_through.
  - discriminate.
  - discriminate.
  - split; [reflexivity|]. exists Sample.bob. split; [reflexivity|].
    discriminate.
Defined.

(** ** Requests of the dashboards *)

Lemma outgoing_bearer w m path h b rt t :
  getItem (localStorage w) "token" = Some t → t ≠ "" →
  headers (outgoing w m path h b rt) !! "Authorization"
  = Some ("Bearer " +:+ t).
Proof.
  intros Ht Hne. unfold outgoing.
  rewrite (interceptor_with_token _ _ t Ht Hne). simpl.
  apply lookup_insert_eq.
Qed.

Lemma outgoing_bare w m path h b rt :
  getItem (localStorage w) "token" = None
  ∨ getItem (localStorage w) "token" = Some "" →
  headers (outgoing w m path h b rt) = h.
Proof. intros H. unfold outgoing. by rewrite interceptor_without_token. Qed.

Lemma via_client_intro w m path h b rt :
  h !! "Authorization" = None → via_client w (outgoing w m path h b rt).
Proof. intros H. by exists m, path, h, b, rt. Qed.

Section AdminRuns.
Import AdminDashboard.

Implicit Types (w : World) (s : State).

Lemma form_complete_or_not s :
  (file s = None ∨ selectedUser s = "")
  ∨ ∃ f, file s = Some f ∧ selectedUser s ≠ "".
Proof.
  destruct (file s) as [f|]; [|by left; left].
  destruct (String.eqb_spec (selectedUser s) ""); [by left; right|].
  right. by exists f.
Qed.

Lemma handleUpload_invalid_run w s :
  file s = None ∨ selectedUser s = "" →
  handleUpload w s
  = (inr tt, s,
     [PreventDefault;
      Toast ToastError "Please select both a file and a user"]).
Proof.
  intros H. unfold handleUpload. run.
  destruct H as [H | H].
  - by rewrite H.
  - destruct (file s); [|done]. by rewrite H.
Qed.

Lemma fetchData_collections w s :
  collections_kept s (final (fetchData w s))
  ∨ collections_refreshed w (final (fetchData w s)).
Proof.
  rewrite fetchData_run.
  destruct (network w (reportsRequest w)) as [rr|] eqn:H1;
    [|by left].
  destruct (network w (usersRequest w)) as [ur|] eqn:H2; [|by left].
  right. by exists rr, ur.
Qed.

(** What the upload handler sends, for every state of the form. *)
Lemma handleUpload_sent w s :
  (sent (effects (handleUpload w s)) = []
   ∧ (file s = None ∨ selectedUser s = ""))
  ∨ ∃ f, file s = Some f ∧ selectedUser s ≠ "" ∧
         (sent (effects (handleUpload w s))
            = [uploadRequest w f (selectedUser s)]
          ∨ sent (effects (handleUpload w s))
            = [uploadRequest w f (selectedUser s);
               reportsRequest w; usersRequest w]).
Proof.
  destruct (form_complete_or_not s) as [H | (f & Hf & Hu)].
  - left. by rewrite handleUpload_invalid_run.
  - right. exists f. split; [done|]. split; [done|].
    rewrite (handleUpload_run w s f Hf Hu). cbv zeta.
    destruct (network w (uploadRequest w f (selectedUser s))).
    + right. unfold effects, sent. cbn -[fetchData].
      pose proof (fetchData_sent w
        {| reports := reports s; users := users s;
           selectedUser := ""; file := None |}) as Hs.
      unfold effects, sent in Hs. by rewrite Hs.
    + by left.
Qed.

Lemma handleDelete_sent w s id :
  sent (effects (handleDelete id w s)) = []
  ∨ (window_confirm w CONFIRM_DELETE = true ∧
     (sent (effects (handleDelete id w s)) = [deleteRequest w id]
      ∨ sent (effects (handleDelete id w s))
        = [deleteRequest w id; reportsRequest w; usersRequest w])).
Proof.
  rewrite handleDelete_run.
  destruct (window_confirm w CONFIRM_DELETE); [|by left].
  right. split; [done|].
  destruct (network w (deleteRequest w id)).
  - right. unfold effects, sent. cbn -[fetchData].
    pose proof (fetchData_sent w s) as Hs.
    unfold effects, sent in Hs. by rewrite Hs.
  - by left.
Qed.

Lemma admin_requests_via_client w s id :
  Forall (via_client w)
    (sent (effects (fetchData w s)) ++ sent (effects (handleUpload w s))
       ++ sent (effects (handleDelete id w s))).
Proof.
  assert (Hr : via_client w (reportsRequest w)) by by apply via_client_intro.
  assert (Hu : via_client w (usersRequest w)) by by apply via_client_intro.
  assert (Hd : via_client w (deleteRequest w id)) by by apply via_client_intro.
  rewrite !Forall_app. split; [|split].
  - rewrite fetchData_sent. by repeat constructor.
  - destruct (handleUpload_sent w s) as [[-> _] | (f & _ & _ & [-> | ->])];
      repeat constructor; try done; by apply via_client_intro.
  - destruct (handleDelete_sent w s id) as [-> | (_ & [-> | ->])];
      by repeat constructor.
Qed.

End AdminRuns.

Section PatientRuns.
Import UserDashboard.

Implicit Types (w : World) (s : State).

Lemma fetchReports_run w s :
  fetchReports w s =
    match network w (AdminDashboard.reportsRequest w) with
    | Resolved res =>
        (inr tt, {| reports := data res |},
         [Sent (AdminDashboard.reportsRequest w)])
    | Rejected _ =>
        (inr tt, s,
         [Sent (AdminDashboard.reportsRequest w);
          Toast ToastError "Failed to fetch your reports"])
    end.
Proof.
  unfold fetchReports, setReports, AdminDashboard.reportsRequest. run.
  by destruct (network w _).
Qed.

Lemma handleDownload_run w s reportId filename :
  handleDownload reportId filename w s =
    match network w (downloadRequest w reportId) with
    | Resolved res =>
        (inr tt, s,
         [Sent (downloadRequest w reportId);
          LinkClick (ObjectURL (data res)) filename])
    | Rejected _ =>
        (inr tt, s,
         [Sent (downloadRequest w reportId);
          Toast ToastError "Download failed"])
    end.
Proof.
  unfold handleDownload, downloadRequest. run. by destruct (network w _).
Qed.

Lemma fetchReports_sent w s :
  sent (effects (fetchReports w s)) = [AdminDashboard.reportsRequest w].
Proof. rewrite fetchReports_run. by destruct (network w _). Qed.

Lemma handleDownload_sent w s reportId filename :
  sent (effects (handleDownload reportId filename w s))
  = [downloadRequest w reportId].
Proof. rewrite handleDownload_run. by destruct (network w _). Qed.

Lemma handlePreview_sent w s reportId :
  sent (effects (handlePreview reportId w s)) = [].
Proof. reflexivity. Qed.

Lemma patient_requests_via_client w s reportId filename :
  Forall (via_client w)
    (sent (effects (fetchReports w s))
       ++ sent (effects (handleDownload reportId filename w s))
       ++ sent (effects (handlePreview reportId w s))).
Proof.
  rewrite fetchReports_sent, handleDownload_sent, handlePreview_sent.
  repeat constructor; by apply via_client_intro.
Qed.

(** X9. Loading the patient's list sends one request, the same one the admin
    page sends for the report list: the client adds no owner filter.  When
    it resolves, the list shown becomes the response body and no notice is
    shown; when it rejects, the list shown is kept and the notice 'Failed to
    fetch your reports' appears. *)
Theorem fetchReports_keeps_stale_list w s :
  sent (effects (fetchReports w s)) = [AdminDashboard.reportsRequest w] ∧
  (method (AdminDashboard.reportsRequest w),
   url (AdminDashboard.reportsRequest w),
   body (AdminDashboard.reportsRequest w)) = (GET, "/reports", None) ∧
  match network w (AdminDashboard.reportsRequest w) with
  | Resolved res =>
      reports (final (fetchReports w s)) = data res ∧
      toasts (effects (fetchReports w s)) = []
  | Rejected _ =>
      final (fetchReports w s) = s ∧
      toasts (effects (fetchReports w s))
        = [(ToastError, "Failed to fetch your reports")]
  end.
Proof.
  split; [apply fetchReports_sent|]. split.
  - pose proof (outgoing_frame w GET "/reports" ∅ None None)
      as (Hm & _ & Hu & Hb & _).
    fold (AdminDashboard.reportsRequest w) in Hm, Hu, Hb.
    by rewrite Hm, Hu, Hb.
  - rewrite fetchReports_run. by destruct (network w _).
Qed.

(** X10. The patient dashboard only reads: every request its handlers send is a
    GET without a body. *)
Theorem patient_dashboard_only_reads w s reportId filename c :
  c ∈ sent (effects (fetchReports w s))
      ++ sent (effects (handleDownload reportId filename w s))
      ++ sent (effects (handlePreview reportId w s)) →
  method c = GET ∧ body c = None.
Proof.
  rewrite fetchReports_sent, handleDownload_sent, handlePreview_sent.
  simpl. intros Hc.
  apply elem_of_cons in Hc as [-> | Hc].
  { pose proof (outgoing_frame w GET "/reports" ∅ None None)
      as (Hm & _ & _ & Hb & _). done. }
  apply elem_of_cons in Hc as [-> | Hc].
  { pose proof (outgoing_frame w GET
                  ("/reports/" +:+ reportId +:+ "/download") ∅ None
                  (Some "blob")) as (Hm & _ & _ & Hb & _). done. }
  by apply elem_of_nil in Hc.
Qed.

Lemma patient_dashboard_only_reads_witness :
  method (downloadRequest Sample.signed_in "42") = GET.
Proof.
  apply (patient_dashboard_only_reads Sample.signed_in initial "42"
           "lipid_panel.pdf").
  vm_compute. right. left.
Defined.

(** X11. The file name given to the download handler is used for the local save
    only: the request sent does not depend on it, and neither does the
    content saved. *)
Theorem handleDownload_filename_stays_local w s reportId name1 name2 :
  sent (effects (handleDownload reportId name1 w s))
  = sent (effects (handleDownload reportId name2 w s)) ∧
  toasts (effects (handleDownload reportId name1 w s))
  = toasts (effects (handleDownload reportId name2 w s)) ∧
  ∀ href saved,
    LinkClick href saved ∈ effects (handleDownload reportId name1 w s) →
    saved = name1 ∧
    LinkClick href name2 ∈ effects (handleDownload reportId name2 w s).
Proof.
  rewrite !handleDownload_run.
  destruct (network w (downloadRequest w reportId)) as [res|];
    unfold effects; cbn -[downloadRequest];
    (split; [done|]); (split; [done|]); intros href saved Hin;
    apply elem_of_cons in Hin as [[=] | Hin];
    apply elem_of_cons in Hin as [Heq | Hin];
    try (by apply elem_of_nil in Hin); try discriminate.
  injection Heq as -> ->. split; [done|]. right. left.
Qed.

End PatientRuns.

(** ** Properties across handlers *)

Lemma dashboard_requests_via_client w sa su id reportId filename c :
  c ∈ sent (effects (AdminDashboard.fetchData w sa))
      ++ sent (effects (AdminDashboard.handleUpload w sa))
      ++ sent (effects (AdminDashboard.handleDelete id w sa))
      ++ sent (effects (UserDashboard.fetchReports w su))
      ++ sent (effects (UserDashboard.handleDownload reportId filename w su))
      ++ sent (effects (UserDashboard.handlePreview reportId w su)) →
  via_client w c.
Proof.
  intros Hc.
  pose proof (admin_requests_via_client w sa id) as Ha.
  pose proof (patient_requests_via_client w su reportId filename) as Hp.
  rewrite !Forall_app in Ha, Hp. destruct Ha as (A1 & A2 & A3).
  destruct Hp as (P1 & P2 & P3).
  rewrite Forall_forall in A1, A2, A3, P1, P2, P3.
  rewrite !elem_of_app in Hc.
  destruct Hc as [?|[?|[?|[?|[?|?]]]]]; eauto.
Qed.

(** X12. While a non-empty token is stored, every request that any handler of
    the two dashboards sends carries it as [Authorization: Bearer <token>]
    and goes to the configured base URL. *)
Theorem dashboard_requests_carry_token w sa su id reportId filename t c :
  getItem (localStorage w) "token" = Some t → t ≠ "" →
  c ∈ sent (effects (AdminDashboard.fetchData w sa))
      ++ sent (effects (AdminDashboard.handleUpload w sa))
      ++ sent (effects (AdminDashboard.handleDelete id w sa))
      ++ sent (effects (UserDashboard.fetchReports w su))
      ++ sent (effects (UserDashboard.handleDownload reportId filename w su))
      ++ sent (effects (UserDashboard.handlePreview reportId w su)) →
  headers c !! "Authorization" = Some ("Bearer " +:+ t) ∧
  baseURL c = backendUrl (REACT_APP_BACKEND_URL w).
Proof.
  intros Ht Hne Hc.
  apply dashboard_requests_via_client in Hc
    as (m & path & h & b & rt & _ & ->).
  split; [by apply outgoing_bearer | apply outgoing_frame].
Qed.

Lemma dashboard_requests_carry_token_witness :
  headers (AdminDashboard.uploadRequest Sample.signed_in Sample.lipid_panel
             "patient@example.com") !! "Authorization"
  = Some "Bearer abc".
Proof.
  apply (dashboard_requests_carry_token Sample.signed_in Sample.form_filled
           UserDashboard.initial "42" "42" "lipid_panel.pdf" "abc").
  - reflexivity.
  - discriminate.
  - vm_compute. do 2 right. left.
Defined.

(** X13. With no token stored, or an empty one, every request that any handler
    of the two dashboards sends leaves without an Authorization header. *)
Theorem dashboard_requests_bare_without_token w sa su id reportId filename c :
  getItem (localStorage w) "token" = None
  ∨ getItem (localStorage w) "token" = Some "" →
  c ∈ sent (effects (AdminDashboard.fetchData w sa))
      ++ sent (effects (AdminDashboard.handleUpload w sa))
      ++ sent (effects (AdminDashboard.handleDelete id w sa))
      ++ sent (effects (UserDashboard.fetchReports w su))
      ++ sent (effects (UserDashboard.handleDownload reportId filename w su))
      ++ sent (effects (UserDashboard.handlePreview reportId w su)) →
  headers c !! "Authorization" = None.
Proof.
  intros Ht Hc.
  apply dashboard_requests_via_client in Hc
    as (m & path & h & b & rt & Hh & ->).
  by rewrite outgoing_bare.
Qed.

Lemma dashboard_requests_bare_without_token_witness :
  headers (AdminDashboard.reportsRequest Scenario.signed_out)
    !! "Authorization" = None.
Proof.
  apply (dashboard_requests_bare_without_token Scenario.signed_out
           Sample.form_filled UserDashboard.initial "42" "42"
           "lipid_panel.pdf").
  - left. reflexivity.
  - vm_compute. left.
Defined.

(** X14. No handler of the two dashboards ever throws: whatever the state, the
    stored token and the answers of the network and of the user, each one
    returns normally. *)
Theorem dashboard_handlers_never_throw w sa su id reportId filename :
  outcome (AdminDashboard.fetchData w sa) = inr tt ∧
  outcome (AdminDashboard.handleUpload w sa) = inr tt ∧
  outcome (AdminDashboard.handleDelete id w sa) = inr tt ∧
  outcome (UserDashboard.fetchReports w su) = inr tt ∧
  outcome (UserDashboard.handleDownload reportId filename w su) = inr tt ∧
  outcome (UserDashboard.handlePreview reportId w su) = inr tt.
Proof.
  split; [apply fetchData_never_throws|]. split; [|split; [|split; [|split]]].
  - destruct (form_complete_or_not sa) as [H | (f & Hf & Hu)].
    + by rewrite handleUpload_invalid_run.
    + rewrite (handleUpload_run w sa f Hf Hu). cbv zeta.
      by destruct (network w _).
  - rewrite handleDelete_run.
    destruct (window_confirm w _); [|done]. by destruct (network w _).
  - rewrite fetchReports_run. by destruct (network w _).
  - rewrite handleDownload_run. by destruct (network w _).
  - reflexivity.
Qed.

Section AdminProperties.
Import AdminDashboard.

Implicit Types (w : World) (s : State).

(** X15. No action of the admin page updates one collection without the other:
    after a refresh, an upload or a delete, the report list and the user
    list are either both as they were or both replaced by the bodies of the
    two list responses. *)
Theorem admin_collections_change_together w s id :
  (collections_kept s (final (fetchData w s))
   ∨ collections_refreshed w (final (fetchData w s))) ∧
  (collections_kept s (final (handleUpload w s))
   ∨ collections_refreshed w (final (handleUpload w s))) ∧
  (collections_kept s (final (handleDelete id w s))
   ∨ collections_refreshed w (final (handleDelete id w s))).
Proof.
  split; [apply fetchData_collections|]. split.
  - destruct (form_complete_or_not s) as [H | (f & Hf & Hu)].
    + rewrite handleUpload_invalid_run by done. by left.
    + rewrite (handleUpload_run w s f Hf Hu). cbv zeta.
      destruct (network w _); [|by left].
      apply (fetchData_collections w
               {| reports := reports s; users := users s;
                  selectedUser := ""; file := None |}).
  - rewrite handleDelete_run.
    destruct (window_confirm w _); [|by left].
    destruct (network w _); [|by left].
    apply fetchData_collections.
Qed.

(** X16. The upload handler sends something only when the form is complete.
    What it sends then starts with the upload request, a POST whose form
    data are the selected file and the selected user; whatever follows is
    a GET of the refresh. *)
Theorem handleUpload_posts_only_complete_form w s :
  (sent (effects (handleUpload w s)) = []
   ∧ (file s = None ∨ selectedUser s = ""))
  ∨ ∃ f rest,
      file s = Some f ∧ selectedUser s ≠ "" ∧
      sent (effects (handleUpload w s))
        = uploadRequest w f (selectedUser s) :: rest ∧
      method (uploadRequest w f (selectedUser s)) = POST ∧
      body (uploadRequest w f (selectedUser s))
        = Some [("file", FormFile f);
                ("user_email", FormText (selectedUser s))] ∧
      Forall (λ c, method c = GET) rest.
Proof.
  destruct (handleUpload_sent w s) as [H | (f & Hf & Hu & Hs)]; [by left|].
  right.
  pose proof (outgoing_frame w POST "/reports/upload" MULTIPART
                (Some [("file", FormFile f);
                       ("user_email", FormText (selectedUser s))]) None)
    as (Hm & _ & _ & Hb & _).
  fold (uploadRequest w f (selectedUser s)) in Hm, Hb.
  destruct Hs as [Hs | Hs].
  - exists f, []. by rewrite Hs.
  - exists f, [reportsRequest w; usersRequest w]. rewrite Hs.
    repeat split; try done.
    repeat constructor; apply outgoing_frame.
Qed.

(** X17. Every submit of the upload form shows a notice first, and that notice
    is the success notice exactly when the form was complete and the server
    accepted the upload. *)
Theorem handleUpload_first_notice w s :
  ∃ kind message rest,
    toasts (effects (handleUpload w s)) = (kind, message) :: rest ∧
    (kind = ToastSuccess
     ↔ ∃ f res, file s = Some f ∧ selectedUser s ≠ "" ∧
                network w (uploadRequest w f (selectedUser s))
                = Resolved res).
Proof.
  destruct (form_complete_or_not s) as [H | (f & Hf & Hu)].
  - rewrite handleUpload_invalid_run by done.
    eexists _, _, _. split; [reflexivity|]. split; [discriminate|].
    intros (f & res & Hf & Hu & _). destruct H; congruence.
  - rewrite (handleUpload_run w s f Hf Hu). cbv zeta.
    destruct (network w (uploadRequest w f (selectedUser s))) as [res|err]
      eqn:Hnet.
    + eexists _, _, _. split; [reflexivity|]. split; [|done].
      intros _. by exists f, res.
    + eexists _, _, _. split; [reflexivity|]. split; [discriminate|].
      intros (f' & res & Hf' & _ & Hres).
      assert (f' = f) as -> by congruence. congruence.
Qed.

(** X18. Deleting never touches the upload form, sends nothing unless the
    confirmation was granted, never sends a POST, and the only DELETE it can
    send is the one for the identifier it was called with. *)
Theorem handleDelete_touches_only_its_report w s id :
  selectedUser (final (handleDelete id w s)) = selectedUser s ∧
  file (final (handleDelete id w s)) = file s ∧
  ∀ c, c ∈ sent (effects (handleDelete id w s)) →
       window_confirm w CONFIRM_DELETE = true ∧
       method c ≠ POST ∧
       (method c = DELETE → c = deleteRequest w id).
Proof.
  split; [|split].
  - rewrite handleDelete_run.
    destruct (window_confirm w _); [|done].
    destruct (network w _); [|done]. apply fetchData_form_frame.
  - rewrite handleDelete_run.
    destruct (window_confirm w _); [|done].
    destruct (network w _); [|done]. apply fetchData_form_frame.
  - intros c Hc.
    pose proof (outgoing_frame w DELETE ("/reports/" +:+ id) ∅ None None)
      as (Hd & _).
    pose proof (outgoing_frame w GET "/reports" ∅ None None) as (Hr & _).
    pose proof (outgoing_frame w GET "/users" ∅ None None) as (Hu & _).
    fold (deleteRequest w id) in Hd. fold (reportsRequest w) in Hr.
    fold (usersRequest w) in Hu.
    destruct (handleDelete_sent w s id) as [H | (Hg & [H | H])];
      rewrite H in Hc.
    + by apply elem_of_nil in Hc.
    + apply list_elem_of_singleton in Hc as ->. by rewrite Hd.
    + apply elem_of_cons in Hc as [-> | Hc]; [by rewrite Hd|].
      apply elem_of_cons in Hc as [-> | Hc]; [by rewrite Hr|].
      apply list_elem_of_singleton in Hc as ->. by rewrite Hu.
Qed.

End AdminProperties.

(** ** The sign-in page *)

Section SignIn.
Import AuthPage.

Implicit Types (w : World) (s : State).

Variable login : string → string → M State unit.
Variable register : string → string → string → M State unit.

(** The call the submit handler awaits, by the mode of the form. *)
Let call s : M State unit :=
  if isLogin s then login (email s) (password s)
  else register (email s) (password s) (role s).

Lemma handleSubmit_run w s :
  handleSubmit login register w s =
    match call s w s with
    | (inr _, s1, l1) =>
        (inr tt,
         {| isLogin := isLogin s1; email := email s1;
            password := password s1; role := role s1; location := "/" |},
         PreventDefault :: l1 ++
           [Toast ToastSuccess (if isLogin s then "Logged in successfully"
                                else "Registered successfully")])
    | (inl err, s1, l1) =>
        (inr tt, s1,
         PreventDefault :: l1 ++
           [Toast ToastError
              (Js.or_else (error_detail err) "Authentication failed")])
    end.
Proof.
  unfold handleSubmit, navigate, call. run.
  destruct (isLogin s).
  - destruct (login (email s) (password s) w s) as [[[err | []] s1] l1];
      reflexivity.
  - destruct (register (email s) (password s) (role s) w s)
      as [[[err | []] s1] l1]; reflexivity.
Qed.

End SignIn.

(** X19. Submitting the sign-in form never throws and changes the location only
    when the awaited call resolved: then the location becomes the root
    path and the success notice of the form's mode is shown last.  When the
    call rejects, the handler leaves the state as the call left it and
    shows one error notice, the server detail if it is not empty and
    'Authentication failed' otherwise. *)
Theorem handleSubmit_navigates_when_accepted login register w s :
  let call := if AuthPage.isLogin s
              then login (AuthPage.email s) (AuthPage.password s)
              else register (AuthPage.email s) (AuthPage.password s)
                     (AuthPage.role s) in
  outcome (AuthPage.handleSubmit login register w s) = inr tt ∧
  match outcome (call w s) with
  | inr _ =>
      AuthPage.location (final (AuthPage.handleSubmit login register w s))
        = "/" ∧
      effects (AuthPage.handleSubmit login register w s)
        = PreventDefault :: effects (call w s) ++
            [Toast ToastSuccess
               (if AuthPage.isLogin s then "Logged in successfully"
                else "Registered successfully")]
  | inl err =>
      final (AuthPage.handleSubmit login register w s) = final (call w s) ∧
      effects (AuthPage.handleSubmit login register w s)
        = PreventDefault :: effects (call w s) ++
            [Toast ToastError
               (Js.or_else (error_detail err) "Authentication failed")]
  end.
Proof.
  intros call. rewrite handleSubmit_run. fold call.
  destruct (call w s) as [[[err | []] s1] l1]; done.
Qed.

(** X20. In login mode the submit handler never calls [register], and in
    registration mode it never calls [login]: its whole run is the same
    whatever the function of the other mode is. *)
Theorem handleSubmit_calls_one_mode login login' register register' w s :
  (AuthPage.isLogin s = true →
   AuthPage.handleSubmit login register w s
   = AuthPage.handleSubmit login register' w s) ∧
  (AuthPage.isLogin s = false →
   AuthPage.handleSubmit login register w s
   = AuthPage.handleSubmit login' register w s).
Proof.
  split; intros H; rewrite !handleSubmit_run; by rewrite H.
Qed.

Lemma handleSubmit_calls_one_mode_witness :
  AuthPage.handleSubmit Scenario.accepting_login
    (λ _ _ _, Scenario.rejecting_call None) Sample.signed_in
    Scenario.login_form
  = AuthPage.handleSubmit Scenario.accepting_login
      (λ _ _ _, Scenario.rejecting_call (Some "Email already registered"))
      Sample.signed_in Scenario.login_form.
Proof.
  apply (handleSubmit_calls_one_mode Scenario.accepting_login
           Scenario.accepting_login).
  reflexivity.
Defined.

(** X21. Switching the form's mode twice gives the state back; one switch
    flips the mode, keeps what was typed and where the page is, and shows
    or sends nothing. *)
Theorem toggleMode_round_trip w s :
  final (AuthPage.toggleMode w (final (AuthPage.toggleMode w s))) = s ∧
  AuthPage.isLogin (final (AuthPage.toggleMode w s))
    = negb (AuthPage.isLogin s) ∧
  AuthPage.email (final (AuthPage.toggleMode w s)) = AuthPage.email s ∧
  AuthPage.password (final (AuthPage.toggleMode w s)) = AuthPage.password s ∧
  AuthPage.role (final (AuthPage.toggleMode w s)) = AuthPage.role s ∧
  AuthPage.location (final (AuthPage.toggleMode w s)) = AuthPage.location s ∧
  effects (AuthPage.toggleMode w s) = [].
Proof.
  destruct s as [m e p r l]. unfold AuthPage.toggleMode, AuthPage.setIsLogin.
  run. by rewrite negb_involutive.
Qed.

(** X22. The sign-in page is rendered on '/login' and on '/register' whatever
    the session state, also while restoration is pending and for a user
    who is already authenticated, and the route decides the mode it starts
    in: a login form on '/login', a registration form with the role 'user'
    preselected on '/register'.  The root path never renders it. *)
Theorem route_sets_initial_mode auth at_location :
  (∃ mode, App auth "/login" = AuthPageElement mode ∧
           AuthPage.isLogin (AuthPage.initial mode at_location) = true) ∧
  (∃ mode, App auth "/register" = AuthPageElement mode ∧
           AuthPage.isLogin (AuthPage.initial mode at_location) = false ∧
           AuthPage.role (AuthPage.initial mode at_location) = "user") ∧
  ∀ mode, App auth "/" ≠ AuthPageElement mode.
Proof.
  split; [by exists "login"|]. split; [by exists "register"|].
  intros mode.
  change (App auth "/")
    with (ProtectedRoute auth (DashboardRouter auth) false).
  rewrite root_route_cases.
  destruct (loading auth); [done|].
  destruct (user auth) as [u|]; [|done].
  by destruct (String.eqb (role u) "admin").
Qed.

(** ** Submitting the upload form again *)

Section Resubmit.
Import AdminDashboard.

Implicit Types (w : World) (s : State).

(** X23. After an accepted upload the form is empty, so submitting it again
    right away sends nothing and shows the validation notice, whatever the
    refresh in between returned. *)
Theorem handleUpload_blocked_after_success w w' s f res :
  file s = Some f → selectedUser s ≠ "" →
  network w (uploadRequest w f (selectedUser s)) = Resolved res →
  sent (effects (handleUpload w' (final (handleUpload w s)))) = [] ∧
  toasts (effects (handleUpload w' (final (handleUpload w s))))
    = [(ToastError, "Please select both a file and a user")].
Proof.
  intros Hf Hu Hnet.
  assert (Hnone : file (final (handleUpload w s)) = None).
  { rewrite (handleUpload_run w s f Hf Hu). cbv zeta. rewrite Hnet.
    unfold final at 1. cbn -[fetchData].
    by destruct (fetchData_form_frame w
                   {| reports := reports s; users := users s;
                      selectedUser := ""; file := None |}) as [_ ->]. }
  rewrite handleUpload_invalid_run by by left. done.
Qed.

Lemma handleUpload_blocked_after_success_witness :
  sent (effects (handleUpload Sample.signed_in
                   (final (handleUpload Sample.signed_in
                             Sample.form_filled)))) = [].
Proof.
  destruct (handleUpload_blocked_after_success Sample.signed_in
              Sample.signed_in Sample.form_filled Sample.lipid_panel
              {| status := 200; data := NoBody |}) as [H _].
  - reflexivity.
  - discriminate.
  - reflexivity.
  - exact H.
Defined.

(** X24. After a rejected upload the form still holds the selection, so
    submitting it again sends the upload request for the same file and the
    same user. *)
Theorem handleUpload_retry_after_failure w w' s f err :
  file s = Some f → selectedUser s ≠ "" →
  network w (uploadRequest w f (selectedUser s)) = Rejected err →
  ∃ rest,
    sent (effects (handleUpload w' (final (handleUpload w s))))
    = uploadRequest w' f (selectedUser s) :: rest.
Proof.
  intros Hf Hu Hnet.
  assert (Hsame : final (handleUpload w s) = s).
  { rewrite (handleUpload_run w s f Hf Hu). cbv zeta. by rewrite Hnet. }
  rewrite Hsame.
  destruct (handleUpload_sent w' s) as [[_ [H | H]] | (f' & Hf' & _ & Hs)];
    try congruence.
  assert (f' = f) as -> by congruence.
  destruct Hs as [-> | ->]; eauto.
Qed.

Lemma handleUpload_retry_after_failure_witness :
  ∃ rest,
    sent (effects (handleUpload Sample.signed_in
                     (final (handleUpload Sample.upload_refused
                               Sample.form_filled))))
    = uploadRequest Sample.signed_in Sample.lipid_panel
        "patient@example.com" :: rest.
Proof.
  apply (handleUpload_retry_after_failure Sample.upload_refused
           Sample.signed_in Sample.form_filled Sample.lipid_panel
           {| response := Some {| status := 400;
                data := ErrorBody (Some "Unsupported file type") |} |}).
  - reflexivity.
  - discriminate.
  - reflexivity.
Defined.

End Resubmit.

(** On the sample server a login that resolves takes the page to the root
    path; a registration the server refuses leaves it where it was and
    shows the server's detail. *)
Example handleSubmit_sample :
  AuthPage.location
    (final (AuthPage.handleSubmit Scenario.accepting_login
              (λ _ _ _, Scenario.rejecting_call None) Sample.signed_in
              Scenario.login_form)) = "/" ∧
  AuthPage.location
    (final (AuthPage.handleSubmit Scenario.accepting_login
              (λ _ _ _, Scenario.rejecting_call
                          (Some "Email already registered"))
              Sample.signed_in Scenario.register_form)) = "/register" ∧
  toasts
    (effects (AuthPage.handleSubmit Scenario.accepting_login
                (λ _ _ _, Scenario.rejecting_call
                            (Some "Email already registered"))
                Sample.signed_in Scenario.register_form))
  = [(ToastError, "Email already registered")].
Proof. vm_compute. done. Qed.
